(** * A shallow embedding of [csv_validator.py]

    The program is a linear pipeline: [validate_file_path],
    [check_file_encoding], [check_csv_format], [analyze_csv],
    [format_report], [write_report_to_file], driven by [main].
    Python exceptions are modelled by [py_outcome]: a call either returns a
    value or raises an exception value.  The third-party parts (the [csv]
    module's reader, [chardet.detect], [pandas.read_csv], the filesystem)
    enter as inputs: a record stream, a detector function, a data frame and
    a world record. *)

From Stdlib Require Import String Ascii List Arith ZArith Lia Bool Sorting.Sorted.
From Stdlib Require Import Init.Byte.
Import ListNotations.
Open Scope string_scope.
Open Scope nat_scope.

(** ** Python exceptions and call outcomes *)

Inductive exc :=
| CsvError (msg : string)            (* _csv.Error *)
| FileNotFoundError (msg : string)
| ValueError (msg : string)
| AttributeError (msg : string)
| StopIteration                       (* next() on an exhausted iterator *)
| OSError (msg : string)              (* open/read failures *)
| UnicodeDecodeError (msg : string)
| OtherError (msg : string).

(** [str(e)] *)
Definition exc_str (e : exc) : string :=
  match e with
  | CsvError m | FileNotFoundError m | ValueError m | AttributeError m
  | OSError m | UnicodeDecodeError m | OtherError m => m
  | StopIteration => ""
  end.

Inductive py_outcome (A : Type) :=
| Returned (a : A)
| Raised (e : exc).
Arguments Returned {A} a.
Arguments Raised {A} e.

(** ** String helpers: [str(int)], [str.lower()], [str.strip()] *)

Fixpoint digits_aux (fuel n : nat) (acc : string) : string :=
  match fuel with
  | 0 => acc
  | S f =>
      let acc' := String (ascii_of_nat (48 + n mod 10)) acc in
      if (n <? 10)%nat then acc' else digits_aux f (n / 10) acc'
  end.

(** [str(n)] for a non-negative Python int. *)
Definition str_of_nat (n : nat) : string := digits_aux (S n) n "".

(** Python's [str.isspace] on the ASCII range: space, \t \n \v \f \r and
    the separators \x1c-\x1f. *)
Definition is_ws (c : ascii) : bool :=
  let n := nat_of_ascii c in (n =? 32) || ((9 <=? n) && (n <=? 13))
  || ((28 <=? n) && (n <=? 31)).

Fixpoint rstrip (s : string) : string :=
  match s with
  | EmptyString => EmptyString
  | String c s' =>
      let r := rstrip s' in
      match r with
      | EmptyString => if is_ws c then EmptyString else String c EmptyString
      | _ => String c r
      end
  end.

Fixpoint lstrip (s : string) : string :=
  match s with
  | EmptyString => EmptyString
  | String c s' => if is_ws c then lstrip s' else s
  end.

(** [str.strip()] *)
Definition strip (s : string) : string := lstrip (rstrip s).

(** [str.lower()] on ASCII letters. *)
Definition lower_ascii (c : ascii) : ascii :=
  let n := nat_of_ascii c in
  if (65 <=? n) && (n <=? 90) then ascii_of_nat (n + 32) else c.

Fixpoint lower (s : string) : string :=
  match s with
  | EmptyString => EmptyString
  | String c s' => String (lower_ascii c) (lower s')
  end.

(** ** [check_csv_format] *)

(** One step of iterating a [csv.reader]: a record (list of fields) or the
    exception raised by [next()] at that point. *)
Inductive reader_item :=
| Rec (fields : list string)
| Raise (e : exc).

(** The file as seen by [open(file_path, 'r', newline='')] followed by
    [csv.reader]: either [open] raises, or the reader yields these items;
    the end of the list is the reader's exhaustion. *)
Inductive csv_source :=
| OpenFails (e : exc)
| Opened (items : list reader_item).

Record mismatch := mk_mismatch {
  row_number : nat;
  expected_columns : nat;
  actual_columns : nat
}.

(** The [details] dict. *)
Record details := mk_details {
  header_columns : nat;
  data_columns : list nat;
  mismatched_rows : list mismatch
}.

Definition details_init : details := mk_details 0 [] [].

Definition set_header_columns (d : details) (n : nat) : details :=
  mk_details n (data_columns d) (mismatched_rows d).

Definition append_data_column (d : details) (n : nat) : details :=
  mk_details (header_columns d) (app (data_columns d) [n]) (mismatched_rows d).

Definition append_mismatch (d : details) (m : mismatch) : details :=
  mk_details (header_columns d) (data_columns d) (app (mismatched_rows d) [m]).

(** The loop [for i, row in enumerate(reader, start=2)]: the [details]
    dict is mutated in place, so the state reached when an exception
    interrupts the loop is returned with it. *)
Fixpoint scan (i : nat) (header : list string) (items : list reader_item)
    (d : details) : details * option exc :=
  match items with
  | [] => (d, None)
  | Raise e :: _ => (d, Some e)
  | Rec row :: rest =>
      let d1 := append_data_column d (length row) in
      let d2 :=
        if negb (length row =? length header)
        then append_mismatch d1 (mk_mismatch i (length header) (length row))
        else d1 in
      scan (S i) header rest d2
  end.

Definition mismatch_line (m : mismatch) : string :=
  "Row " ++ str_of_nat (row_number m) ++ ": Expected "
  ++ str_of_nat (expected_columns m) ++ " columns, found "
  ++ str_of_nat (actual_columns m).

Definition nl : string := String (ascii_of_nat 10) EmptyString.

Definition mismatch_header : string :=
  "Column count mismatch found in the following rows:" ++ nl.

(** [error_msg += f"Row ...\n"] over the mismatches. *)
Definition build_error_msg (ms : list mismatch) : string :=
  fold_left (fun acc m => acc ++ mismatch_line m ++ nl) ms mismatch_header.

Definition format_result : Type := bool * string * details.

(** The body of the [try] block, with the [details] dict it has mutated. *)
Definition check_csv_format_body (src : csv_source)
    : details * py_outcome format_result :=
  match src with
  | OpenFails e => (details_init, Raised e)
  | Opened [] => (details_init, Raised StopIteration)
  | Opened (Raise e :: _) => (details_init, Raised e)
  | Opened (Rec header :: rest) =>
      match header with
      | [] => (details_init, Returned (false, "Empty CSV file", details_init))
      | _ =>
          let d1 := set_header_columns details_init (length header) in
          match scan 2 header rest d1 with
          | (d, Some e) => (d, Raised e)
          | (d, None) =>
              match mismatched_rows d with
              | _ :: _ =>
                  (d, Returned (false, strip (build_error_msg (mismatched_rows d)), d))
              | [] => (d, Returned (true, "CSV format is valid", d))
              end
          end
      end
  end.

(** [check_csv_format]: the [try]/[except csv.Error]/[except Exception]. *)
Definition check_csv_format (src : csv_source) : py_outcome format_result :=
  match check_csv_format_body src with
  | (d, Raised (CsvError m)) => Returned (false, "CSV format error: " ++ m, d)
  | (d, Raised e) => Returned (false, "Error reading CSV: " ++ exc_str e, d)
  | (_, Returned r) => Returned r
  end.

(** [csv.reader] (default dialect) on text that holds no quote character
    and no carriage return: each newline ends a record, an empty line is
    the empty record, other lines are split at the commas. *)
Fixpoint split_on (sep : ascii) (s : string) : list string :=
  match s with
  | EmptyString => [EmptyString]
  | String c s' =>
      match split_on sep s' with
      | [] => []
      | f :: fs => if Ascii.eqb c sep then EmptyString :: f :: fs
                   else String c f :: fs
      end
  end.

Definition lines_of (s : string) : list string :=
  match rev (split_on (ascii_of_nat 10) s) with
  | EmptyString :: rest => rev rest
  | l => rev l
  end.

Definition fields_of_line (l : string) : list string :=
  match l with
  | EmptyString => []
  | _ => split_on "," l
  end.

Definition csv_reader_plain (text : string) : csv_source :=
  Opened (map (fun l => Rec (fields_of_line l)) (lines_of text)).

Definition text_of (ls : list string) : string :=
  fold_right (fun l acc => l ++ nl ++ acc) "" ls.

(** The message of the mismatch branch as a list of lines: the header line
    followed by one line per mismatch, separated by newlines. *)
Fixpoint join_lines (ls : list string) : string :=
  match ls with
  | [] => ""
  | [l] => l
  | l :: ls' => l ++ nl ++ join_lines ls'
  end.

(** ** [check_file_encoding] *)

(** [chardet.detect] is an input: on the sampled bytes it either raises or
    yields [result['encoding']], which is [None] when nothing is detected.
    The file is what [open(file_path, 'rb')] followed by [read] yields, or
    the exception raised by opening or reading it. *)
Definition detector : Type := list byte -> py_outcome (option string).

Definition check_file_encoding (detect : detector) (file : py_outcome (list byte))
    : py_outcome (bool * string) :=
  let body :=
    match file with
    | Raised e => Raised e
    | Returned contents =>
        let raw_data := firstn 10000 contents in
        match detect raw_data with
        | Raised e => Raised e
        | Returned None =>
            Raised (AttributeError "'NoneType' object has no attribute 'lower'")
        | Returned (Some enc) =>
            if String.eqb (lower enc) "utf-8"
            then Returned (true, "File is UTF-8 encoded")
            else Returned (false, "File is " ++ enc ++ " encoded, not UTF-8")
        end
    end in
  match body with
  | Raised e => Returned (false, "Error checking file encoding: " ++ exc_str e)
  | Returned r => Returned r
  end.

(** ** [validate_file_path] and the [Path] attributes it uses *)

(** [Path(s).name]: the last component, empty and ["."] components being
    dropped by the normalisation of [Path]. *)
Definition path_name (s : string) : string :=
  match rev (filter (fun c => negb (String.eqb c "" || String.eqb c "."))
                    (split_on "/" s)) with
  | [] => ""
  | c :: _ => c
  end.

(** [name.rfind('.')] *)
Fixpoint rfind_aux (c : ascii) (s : string) (i : nat) (found : option nat)
    : option nat :=
  match s with
  | EmptyString => found
  | String x s' => rfind_aux c s' (S i) (if Ascii.eqb x c then Some i else found)
  end.

Definition rfind (c : ascii) (s : string) : option nat := rfind_aux c s 0 None.

(** [Path.suffix]: [name[i:]] when [0 < i < len(name) - 1], else [""]. *)
Definition path_suffix (name : string) : string :=
  match rfind "." name with
  | Some i => if (0 <? i) && (i <? String.length name - 1)
              then substring i (String.length name - i) name else ""
  | None => ""
  end.

(** [Path.stem]: [name[:i]] under the same condition, else [name]. *)
Definition path_stem (name : string) : string :=
  match rfind "." name with
  | Some i => if (0 <? i) && (i <? String.length name - 1)
              then substring 0 i name else name
  | None => name
  end.

(** [validate_file_path]: [exists_] is [Path.exists], the only access to
    the filesystem. [Path.exists] calls [os.stat]: it answers [False] when
    [stat] fails with ENOENT, ENOTDIR, EBADF or ELOOP (or raises
    [ValueError]), and re-raises any other [OSError] (a name longer than
    the system limit, a directory that cannot be searched, ...); that
    exception leaves [validate_file_path] unhandled. *)
Definition validate_file_path (exists_ : string -> py_outcome bool) (file_path : string)
    : py_outcome string :=
  match exists_ file_path with
  | Raised e => Raised e
  | Returned ex =>
      if negb ex
      then Raised (FileNotFoundError ("The file " ++ file_path ++ " does not exist"))
      else if negb (String.eqb (lower (path_suffix (path_name file_path))) ".csv")
      then Raised (ValueError ("The file " ++ file_path ++ " is not a CSV file"))
      else Returned file_path
  end.

(** ** [analyze_csv] over a pandas data frame *)

(** A cell of the frame after [pd.read_csv]'s parsing: an integer, a text
    value, or a missing value ([NaN]). *)
Inductive cell :=
| CInt (z : Z)
| CStr (s : string)
| CNaN.

Definition cell_eqb (a b : cell) : bool :=
  match a, b with
  | CInt x, CInt y => Z.eqb x y
  | CStr x, CStr y => String.eqb x y
  | CNaN, CNaN => true
  | _, _ => false
  end.

Definition frame_row : Type := list cell.

Fixpoint row_eqb (r s : frame_row) : bool :=
  match r, s with
  | [], [] => true
  | a :: r', b :: s' => cell_eqb a b && row_eqb r' s'
  | _, _ => false
  end.

Record dataframe := mk_frame {
  df_columns : list string;
  df_dtypes : list string;
  df_rows : list frame_row
}.

(** [df.drop_duplicates()] (keep='first'): a row is kept unless an equal
    row was kept before it; rows are compared on all their values, missing
    values comparing equal as in [DataFrame.duplicated]. *)
Fixpoint drop_dup_aux (seen : list frame_row) (rows : list frame_row)
    : list frame_row :=
  match rows with
  | [] => []
  | r :: rs =>
      if existsb (row_eqb r) seen then drop_dup_aux seen rs
      else r :: drop_dup_aux (r :: seen) rs
  end.

Definition drop_duplicates (rows : list frame_row) : list frame_row :=
  drop_dup_aux [] rows.

Definition column_cells (df : dataframe) (j : nat) : list cell :=
  map (fun r => nth j r CNaN) (df_rows df).

Definition is_nan (c : cell) : bool :=
  match c with CNaN => true | _ => false end.

(** [Series.nunique()] (dropna=True). *)
Fixpoint nunique_aux (seen : list cell) (cs : list cell) : nat :=
  match cs with
  | [] => length seen
  | c :: cs' =>
      if is_nan c || existsb (cell_eqb c) seen then nunique_aux seen cs'
      else nunique_aux (c :: seen) cs'
  end.

Definition nunique (cs : list cell) : nat := nunique_aux [] cs.

Record analysis_result := mk_analysis {
  total_rows : nat;
  total_columns : nat;
  columns : list string;
  null_counts : list (string * nat);
  duplicate_rows : nat;
  column_stats : list (string * (nat * string))
}.

(** The dictionary built by [analyze_csv] from the loaded frame. *)
Definition analyze_frame (df : dataframe) : analysis_result :=
  let idx := seq 0 (length (df_columns df)) in
  {| total_rows := length (df_rows df);
     total_columns := length (df_columns df);
     columns := df_columns df;
     null_counts :=
       map (fun j => (nth j (df_columns df) "",
                      length (filter is_nan (column_cells df j)))) idx;
     duplicate_rows := length (df_rows df) - length (drop_duplicates (df_rows df));
     column_stats :=
       map (fun j => (nth j (df_columns df) "",
                      (nunique (column_cells df j), nth j (df_dtypes df) "object")))
           idx |}.

(** [analyze_csv]: [pd.read_csv] raises, or the frame is analysed. *)
Definition analyze_csv (loaded : py_outcome dataframe) : py_outcome analysis_result :=
  match loaded with
  | Raised e => Raised e
  | Returned df => Returned (analyze_frame df)
  end.

(** [pd.read_csv] with its defaults on quote-free, carriage-return-free
    text whose numeric cells are integers: the first line names the
    columns, blank lines are skipped, an empty cell is missing, a column
    whose present cells all read as integers is numeric ([int64], or
    [float64] when a cell is missing), any other column keeps its text
    ([object]). *)
Fixpoint digits_value (s : string) (acc : Z) : option Z :=
  match s with
  | EmptyString => Some acc
  | String c s' =>
      let n := nat_of_ascii c in
      if (48 <=? n) && (n <=? 57)
      then digits_value s' (acc * 10 + Z.of_nat (n - 48))%Z else None
  end.

Definition parse_int (s : string) : option Z :=
  match s with
  | EmptyString => None
  | String "-" EmptyString => None
  | String "-" s' => option_map Z.opp (digits_value s' 0)
  | _ => digits_value s 0
  end.

Definition read_csv_plain (text : string) : py_outcome dataframe :=
  match lines_of text with
  | [] => Raised (ValueError "No columns to parse from file")
  | h :: ls =>
      let names := fields_of_line h in
      let raw := map fields_of_line (filter (fun l => negb (String.eqb l "")) ls) in
      let col j := map (fun r => nth j r "") raw in
      let numeric j :=
        forallb (fun s => String.eqb s "" || match parse_int s with Some _ => true | None => false end) (col j) in
      let conv j s :=
        if String.eqb s "" then CNaN
        else if numeric j then match parse_int s with
                               | Some z => CInt z | None => CStr s end
        else CStr s in
      let idx := seq 0 (length names) in
      Returned {| df_columns := names;
                  df_dtypes :=
                    map (fun j => if numeric j
                                  then if existsb (String.eqb "") (col j)
                                       then "float64" else "int64"
                                  else "object") idx;
                  df_rows := map (fun r => map (fun j => conv j (nth j r "")) idx) raw |}
  end.

(** ** [write_report_to_file] and [main] *)

(** What a run does that can be observed: lines printed (without the
    newline [print] adds), the call of [analyze_csv] and [format_report],
    and the report file written. *)
Inductive event :=
| EvStdout (s : string)
| EvStderr (s : string)
| EvAnalyze (path : string)
| EvFormatReport
| EvWrite (name contents : string).

(** The environment of a run: [Path.exists] (its answer, or the [OSError]
    it re-raises), the bytes [open(.., 'rb')]
    yields, the record stream of [csv.reader], what [pd.read_csv] yields,
    the outcome of writing a file ([None] when it succeeds), and the
    timestamp [datetime.now().strftime("%Y%m%d_%H%M%S")]. *)
Record world := mk_world {
  w_exists : string -> py_outcome bool;
  w_bytes : string -> py_outcome (list byte);
  w_csv : string -> csv_source;
  w_read_csv : string -> py_outcome dataframe;
  w_write : string -> string -> option exc;
  w_timestamp : string
}.

Definition report_filename (w : world) (input_file : string) : string :=
  path_stem (path_name input_file) ++ "_validation_report_" ++ w_timestamp w ++ ".txt".

Definition write_report_to_file (w : world) (report input_file : string)
    : list event * option string :=
  let name := report_filename w input_file in
  match w_write w name report with
  | None => ([EvWrite name report], Some name)
  | Some e =>
      ([EvStderr ("Warning: Could not write report to file: " ++ exc_str e)], None)
  end.

(** The outer handlers of [main]: [except (FileNotFoundError, ValueError)]
    also catches the subclasses of [ValueError], among them
    [UnicodeDecodeError] (pandas' [EmptyDataError] and [ParserError] are
    [ValueError]s as well, and are represented by [ValueError]). *)
Definition main_handler (e : exc) : string :=
  match e with
  | FileNotFoundError _ | ValueError _ | UnicodeDecodeError _ => "Error: " ++ exc_str e
  | _ => "Unexpected error: " ++ exc_str e
  end.

Section Driver.

(** [chardet.detect] and [format_report] (a pure renderer built on
    [tabulate]) are taken as given; every statement below holds for all of
    them. *)
Variable detect : detector.
Variable format_report : analysis_result -> format_result -> string.

(** [main] after argument parsing: the events of the run and the exit
    status ([sys.exit(1)] raises [SystemExit], which [except Exception]
    does not catch). *)
Definition main (w : world) (arg : string) : list event * nat :=
  match validate_file_path (w_exists w) arg with
  | Raised e => ([EvStderr (main_handler e)], 1)
  | Returned file_path =>
      match check_file_encoding detect (w_bytes w file_path) with
      | Raised e => ([EvStderr (main_handler e)], 1)
      | Returned (false, info) => ([EvStderr ("Error: " ++ info)], 1)
      | Returned (true, _) =>
          match check_csv_format (w_csv w file_path) with
          | Raised e => ([EvStderr (main_handler e)], 1)
          | Returned (ok, msg, d) =>
              if ok then
                match analyze_csv (w_read_csv w file_path) with
                | Raised e => ([EvAnalyze file_path; EvStderr (main_handler e)], 1)
                | Returned results =>
                    let report := format_report results (ok, msg, d) in
                    let (evs, report_path) := write_report_to_file w report file_path in
                    (EvAnalyze file_path :: EvFormatReport :: EvStdout report
                       :: app evs
                            (match report_path with
                             | Some p => [EvStdout (nl ++ "Report has been written to: " ++ p)]
                             | None => []
                             end), 0)
                end
              else ([EvStderr ("Error: " ++ msg)], 1)
          end
      end
  end.

End Driver.

(** ** [format_report] *)

(** A cell handed to [tabulate]: a text value or an integer. *)
Inductive table_cell :=
| TText (s : string)
| TNum (n : nat).

(** [s * n] *)
Fixpoint repeat_str (s : string) (n : nat) : string :=
  match n with
  | 0 => ""
  | S n' => s ++ repeat_str s n'
  end.

(** [", ".join(ls)] *)
Fixpoint join_comma (ls : list string) : string :=
  match ls with
  | [] => ""
  | [l] => l
  | l :: ls' => l ++ ", " ++ join_comma ls'
  end.

(** [sorted(set(counts))]: the distinct counts in ascending order. *)
Fixpoint insert_unique (x : nat) (l : list nat) : list nat :=
  match l with
  | [] => [x]
  | y :: l' => if x <? y then x :: l
               else if x =? y then l
               else y :: insert_unique x l'
  end.

Definition sorted_set (l : list nat) : list nat := fold_right insert_unique [] l.

(** The "Column Alignment Details" block, present when the header has a
    field. *)
Definition alignment_lines (d : details) : list string :=
  if 0 <? header_columns d then
    [nl ++ "Column Alignment Details"; repeat_str "-" 20;
     "Header columns: " ++ str_of_nat (header_columns d)]
    ++ match data_columns d with
       | [] => []
       | c0 :: _ =>
           if 1 <? length (sorted_set (data_columns d))
           then ["Warning: Multiple column counts found in data rows";
                 "Column counts found: "
                   ++ join_comma (map str_of_nat (sorted_set (data_columns d)))]
           else ["All data rows have " ++ str_of_nat c0 ++ " columns"]
       end
  else [].

Section Report.

(** [tabulate(rows, headers=..., tablefmt='grid')], a third-party
    renderer, is taken as given. *)
Variable tabulate_grid : list (list table_cell) -> list string -> string.

(** The list [report] built by [format_report]. *)
Definition format_report_lines (results : analysis_result) (fc : format_result)
    : list string :=
  let '(ok, msg, d) := fc in
  ["CSV Format Validation"; repeat_str "=" 20;
   "Status: " ++ (if ok then "✓ Valid" else "✗ Invalid");
   "Details: " ++ msg]
  ++ alignment_lines d
  ++ [""; "Basic Statistics"; repeat_str "=" 20;
      "Total Rows: " ++ str_of_nat (total_rows results);
      "Total Columns: " ++ str_of_nat (total_columns results);
      "Duplicate Rows: " ++ str_of_nat (duplicate_rows results);
      "";
      "Null Value Analysis"; repeat_str "=" 20;
      tabulate_grid (map (fun '(col, count) => [TText col; TNum count])
                         (null_counts results))
                    ["Column"; "Null Count"];
      "";
      "Column Statistics"; repeat_str "=" 20;
      tabulate_grid (map (fun '(col, (uniq, dtype)) => [TText col; TText dtype; TNum uniq])
                         (column_stats results))
                    ["Column"; "Data Type"; "Unique Values"]].

(** [format_report]: ["\n".join(report)]. *)
Definition format_report (results : analysis_result) (fc : format_result) : string :=
  join_lines (format_report_lines results fc).

End Report.

(** The mismatch entries the scan records for [rows], numbered from [i]. *)
Fixpoint mismatches_from (i : nat) (header : list string) (rows : list (list string))
    : list mismatch :=
  match rows with
  | [] => []
  | r :: rs =>
      app (if negb (length r =? length header)
           then [mk_mismatch i (length header) (length r)] else [])
          (mismatches_from (S i) header rs)
  end.

(** A string whose last character is not whitespace. *)
Definition ends_solid (s : string) : Prop :=
  exists y c, s = y ++ String c EmptyString /\ is_ws c = false.

(** A record stream in which the reader never raises, and the file opened. *)
Definition is_record (it : reader_item) : bool :=
  match it with Rec _ => true | Raise _ => false end.

Definition reads_cleanly (src : csv_source) : bool :=
  match src with
  | OpenFails _ => false
  | Opened items => forallb is_record items
  end.

(** The first exception the reader raises in a stream. *)
Fixpoint first_raise (items : list reader_item) : option exc :=
  match items with
  | [] => None
  | Rec _ :: rest => first_raise rest
  | Raise e :: _ => Some e
  end.

(** The exception [check_csv_format]'s [try] block meets: from [open], from
    [next(reader)] on the header (an empty file gives [StopIteration]), or
    from the loop over the data rows; none when the header is empty, since
    the function returns before the loop. *)
Definition first_fault (src : csv_source) : option exc :=
  match src with
  | OpenFails e => Some e
  | Opened [] => Some StopIteration
  | Opened (Raise e :: _) => Some e
  | Opened (Rec [] :: _) => None
  | Opened (Rec _ :: rest) => first_raise rest
  end.

Definition is_csv_error (e : exc) : bool :=
  match e with CsvError _ => true | _ => false end.

(** The [is_utf8] flag of an encoding check outcome. *)
Definition enc_ok (r : py_outcome (bool * string)) : bool :=
  match r with Returned (b, _) => b | Raised _ => false end.

(** The inputs of the spec's scenarios B and C. *)
Definition scenario_B : string := text_of ["a,b"; "1,2"; "3"].
Definition scenario_C : string := text_of ["a,b"; "1,2"; "1,2"].

(** The world of the scenario runs: every file exists, its bytes are
    detected as UTF-8, it holds [text], and writing succeeds or fails as
    [write]. *)
Definition scenario_world (text : string) (write : string -> string -> option exc)
    : world :=
  mk_world (fun _ => Returned true) (fun _ => Returned []) (fun _ => csv_reader_plain text)
           (fun _ => read_csv_plain text) write "20261015_120000".

Definition utf8_detector : detector := fun _ => Returned (Some "utf-8").




(** * Proofs *)

(** ** Strings *)

Lemma str_app_assoc (a b c : string) : (a ++ b) ++ c = a ++ (b ++ c).
Proof. induction a as [|x a IH]; simpl; [reflexivity | now rewrite IH]. Qed.

Lemma str_app_nil_r (a : string) : a ++ "" = a.
Proof. induction a as [|x a IH]; simpl; [reflexivity | now rewrite IH]. Qed.

Lemma rstrip_app (x y : string) :
  rstrip y <> EmptyString -> rstrip (x ++ y) = x ++ rstrip y.
Proof.
  intros Hy. induction x as [|c x IH]; simpl; [reflexivity|].
  rewrite IH. destruct (x ++ rstrip y) eqn:E.
  - destruct x; simpl in E; [congruence | discriminate].
  - reflexivity.
Qed.

Lemma digits_aux_suffix (f n : nat) (acc : string) :
  exists x, digits_aux f n acc = x ++ acc.
Proof.
  revert n acc. induction f as [|f IH]; intros n acc; cbn [digits_aux].
  - now exists EmptyString.
  - destruct (n <? 10).
    + now exists (String (ascii_of_nat (48 + n mod 10)) EmptyString).
    + destruct (IH (n / 10) (String (ascii_of_nat (48 + n mod 10)) acc)) as [x Hx].
      exists (x ++ String (ascii_of_nat (48 + n mod 10)) EmptyString).
      rewrite Hx, str_app_assoc. reflexivity.
Qed.

Lemma digit_not_ws (n : nat) : is_ws (ascii_of_nat (48 + n mod 10)) = false.
Proof.
  assert (Hb : n mod 10 < 10) by (apply Nat.mod_upper_bound; lia).
  unfold is_ws. rewrite nat_ascii_embedding by lia.
  apply not_true_iff_false. intros H.
  repeat rewrite orb_true_iff in H. repeat rewrite andb_true_iff in H.
  rewrite Nat.eqb_eq in H. repeat rewrite Nat.leb_le in H. lia.
Qed.

Lemma str_of_nat_solid (n : nat) : ends_solid (str_of_nat n).
Proof.
  unfold str_of_nat, ends_solid. cbn [digits_aux].
  destruct (n <? 10).
  - exists EmptyString, (ascii_of_nat (48 + n mod 10)). split; [reflexivity|].
    apply digit_not_ws.
  - destruct (digits_aux_suffix n (n / 10)
                (String (ascii_of_nat (48 + n mod 10)) EmptyString)) as [x Hx].
    exists x, (ascii_of_nat (48 + n mod 10)). split; [exact Hx|].
    apply digit_not_ws.
Qed.

Lemma ends_solid_app (s t : string) : ends_solid t -> ends_solid (s ++ t).
Proof.
  intros [y [c [-> Hc]]]. exists (s ++ y), c. split; [|exact Hc].
  now rewrite str_app_assoc.
Qed.

Lemma rstrip_solid_nl (x : string) : ends_solid x -> rstrip (x ++ nl) = x.
Proof.
  intros [y [c [-> Hc]]]. rewrite str_app_assoc. simpl.
  rewrite rstrip_app.
  - simpl. rewrite Hc. reflexivity.
  - simpl. rewrite Hc. discriminate.
Qed.

Lemma mismatch_line_solid (m : mismatch) : ends_solid (mismatch_line m).
Proof.
  unfold mismatch_line. repeat apply ends_solid_app. apply str_of_nat_solid.
Qed.

Lemma join_lines_solid (ms : list mismatch) :
  ms <> [] -> ends_solid (join_lines (map mismatch_line ms)).
Proof.
  intros Hne. induction ms as [|m ms IH]; [congruence|].
  destruct ms as [|m' ms'].
  - apply mismatch_line_solid.
  - simpl map. change (ends_solid (mismatch_line m ++ nl
                        ++ join_lines (map mismatch_line (m' :: ms')))).
    repeat apply ends_solid_app. apply IH. discriminate.
Qed.

Lemma fold_error_lines (ms : list mismatch) (acc : string) :
  ms <> [] ->
  fold_left (fun acc m => acc ++ mismatch_line m ++ nl) ms acc
  = acc ++ join_lines (map mismatch_line ms) ++ nl.
Proof.
  revert acc. induction ms as [|m ms IH]; intros acc Hne; [congruence|].
  destruct ms as [|m' ms'].
  - reflexivity.
  - change (fold_left (fun acc m => acc ++ mismatch_line m ++ nl) (m' :: ms')
              (acc ++ mismatch_line m ++ nl)
            = acc ++ join_lines (map mismatch_line (m :: m' :: ms')) ++ nl).
    rewrite IH by discriminate.
    change (join_lines (map mismatch_line (m :: m' :: ms')))
      with (mismatch_line m ++ nl ++ join_lines (map mismatch_line (m' :: ms'))).
    now repeat rewrite str_app_assoc.
Qed.

Lemma strip_error_msg (ms : list mismatch) :
  ms <> [] ->
  strip (build_error_msg ms)
  = "Column count mismatch found in the following rows:" ++ nl
    ++ join_lines (map mismatch_line ms).
Proof.
  intros Hne. unfold strip, build_error_msg. rewrite fold_error_lines by exact Hne.
  rewrite <- str_app_assoc. rewrite rstrip_solid_nl.
  - unfold mismatch_header. rewrite str_app_assoc. reflexivity.
  - apply ends_solid_app, join_lines_solid, Hne.
Qed.

(** ** The scan of [check_csv_format] *)

Lemma scan_records (rows : list (list string)) (i : nat) (header : list string)
    (d : details) :
  scan i header (map Rec rows) d
  = (mk_details (header_columns d) (app (data_columns d) (map (@length string) rows))
                (app (mismatched_rows d) (mismatches_from i header rows)), None).
Proof.
  revert i d. induction rows as [|r rows IH]; intros i d; simpl.
  - destruct d; simpl. now rewrite !app_nil_r.
  - rewrite IH. destruct (negb (length r =? length header)); simpl;
      now rewrite <- !app_assoc.
Qed.

Lemma mismatches_from_nil (i : nat) (header : list string) (rows : list (list string)) :
  mismatches_from i header rows = []
  <-> forallb (fun r => length r =? length header) rows = true.
Proof.
  revert i. induction rows as [|r rows IH]; intros i; simpl; [tauto|].
  rewrite andb_true_iff, <- (IH (S i)).
  destruct (length r =? length header); simpl; split; intuition discriminate.
Qed.

Lemma mismatches_from_In (i : nat) (header : list string)
    (rows : list (list string)) (m : mismatch) :
  In m (mismatches_from i header rows)
  <-> exists k row, nth_error rows k = Some row /\ length row <> length header
        /\ m = mk_mismatch (i + k) (length header) (length row).
Proof.
  revert i. induction rows as [|r rows IH]; intros i; simpl.
  - split; [tauto|]. intros [k [row [H _]]]. destruct k; discriminate.
  - rewrite in_app_iff, IH. split.
    + intros [Hm | [k [row [Hk [Hl ->]]]]].
      * destruct (length r =? length header) eqn:E; simpl in Hm; [tauto|].
        destruct Hm as [<- | []]. exists 0, r. rewrite Nat.add_0_r.
        apply Nat.eqb_neq in E. auto.
      * exists (S k), row. rewrite Nat.add_succ_r. auto.
    + intros [[|k] [row [Hk [Hl ->]]]]; simpl in Hk.
      * injection Hk as <-. left. rewrite Nat.add_0_r.
        apply Nat.eqb_neq in Hl. rewrite Hl. simpl. auto.
      * right. exists k, row. rewrite Nat.add_succ_r. auto.
Qed.

Lemma mismatches_from_sorted (i : nat) (header : list string)
    (rows : list (list string)) :
  StronglySorted lt (map row_number (mismatches_from i header rows))
  /\ Forall (le i) (map row_number (mismatches_from i header rows)).
Proof.
  revert i. induction rows as [|r rows IH]; intros i; simpl.
  - split; constructor.
  - destruct (IH (S i)) as [Hs Hf].
    destruct (negb (length r =? length header)); simpl.
    + split.
      * constructor; [exact Hs|].
        eapply Forall_impl; [|exact Hf]. intros a Ha; simpl in Ha; lia.
      * constructor; [lia|]. eapply Forall_impl; [|exact Hf]. intros a Ha; lia.
    + split; [exact Hs|]. eapply Forall_impl; [|exact Hf]. intros a Ha; lia.
Qed.

Lemma strongly_sorted_lt_nodup (l : list nat) : StronglySorted lt l -> NoDup l.
Proof.
  induction 1 as [|a l _ IH Hf]; constructor; [|exact IH].
  intros Hin. rewrite Forall_forall in Hf. specialize (Hf a Hin). lia.
Qed.

(** C1. For a header with at least one field and a record stream that
    raises nothing, the check is valid with "CSV format is valid" exactly
    when every data row has the header's field count; otherwise it is
    invalid, each differing row (numbered from 2) occurs exactly once among
    the mismatches, which carry the header's and the row's counts and come
    in ascending row order, and the message is the heading line followed by
    one "Row N: Expected E columns, found A" line per mismatch, with the
    trailing newline trimmed. *)
Theorem check_csv_format_rows (header : list string) (rows : list (list string)) :
  header <> [] ->
  exists d,
    header_columns d = length header
    /\ data_columns d = map (@length string) rows
    /\ if forallb (fun r => length r =? length header) rows
       then check_csv_format (Opened (Rec header :: map Rec rows))
              = Returned (true, "CSV format is valid", d)
            /\ mismatched_rows d = []
       else check_csv_format (Opened (Rec header :: map Rec rows))
              = Returned (false, "Column count mismatch found in the following rows:"
                                 ++ nl ++ join_lines (map mismatch_line (mismatched_rows d)), d)
            /\ (forall k row, nth_error rows k = Some row -> length row <> length header ->
                  count_occ Nat.eq_dec (map row_number (mismatched_rows d)) (k + 2) = 1)
            /\ (forall m, In m (mismatched_rows d) ->
                  exists k row, nth_error rows k = Some row
                    /\ length row <> length header
                    /\ m = mk_mismatch (k + 2) (length header) (length row))
            /\ StronglySorted lt (map row_number (mismatched_rows d)).
Proof.
  intros Hh.
  set (d := mk_details (length header) (map (@length string) rows)
                       (mismatches_from 2 header rows)).
  assert (Hcheck : check_csv_format_body (Opened (Rec header :: map Rec rows))
    = (d, match mismatches_from 2 header rows with
          | _ :: _ => Returned (false, strip (build_error_msg (mismatches_from 2 header rows)), d)
          | [] => Returned (true, "CSV format is valid", d)
          end)).
  { unfold check_csv_format_body. destruct header as [|h t]; [congruence|].
    rewrite scan_records. simpl. fold d.
    destruct (mismatches_from 2 (h :: t) rows); reflexivity. }
  exists d. split; [reflexivity|]. split; [reflexivity|].
  assert (Hmr : mismatched_rows d = mismatches_from 2 header rows) by reflexivity.
  clearbody d.
  unfold check_csv_format. rewrite Hcheck.
  destruct (forallb (fun r => length r =? length header) rows) eqn:Hall.
  - apply (mismatches_from_nil 2) in Hall. rewrite Hmr, Hall. auto.
  - assert (Hne : mismatches_from 2 header rows <> []).
    { intros E. apply (mismatches_from_nil 2) in E. congruence. }
    destruct (mismatches_from_sorted 2 header rows) as [Hs _].
    rewrite Hmr.
    split.
    { rewrite <- strip_error_msg by exact Hne.
      destruct (mismatches_from 2 header rows); [congruence|reflexivity]. }
    split; [|split; [|exact Hs]].
    + intros k row Hk Hl.
      apply (NoDup_count_occ' Nat.eq_dec); [now apply strongly_sorted_lt_nodup|].
      apply in_map_iff. exists (mk_mismatch (k + 2) (length header) (length row)).
      split; [reflexivity|]. apply mismatches_from_In.
      exists k, row. rewrite Nat.add_comm. auto.
    + intros m Hm. apply mismatches_from_In in Hm.
      destruct Hm as [k [row [Hk [Hl ->]]]]. exists k, row.
      rewrite Nat.add_comm. auto.
Qed.

(** Witness of C1 on the records of scenario B. *)
Lemma check_csv_format_rows_witness :
  (["a"; "b"] : list string) <> []
  /\ exists d, header_columns d = 2 /\ data_columns d = [2; 1]
       /\ mismatched_rows d = [mk_mismatch 3 2 1].
Proof.
  split; [discriminate|].
  destruct (check_csv_format_rows ["a"; "b"] [["1"; "2"]; ["3"]]
              ltac:(discriminate)) as [d [Hh [Hd H]]].
  simpl in H. destruct H as [Hc _].
  exists d. split; [exact Hh|]. split; [exact Hd|].
  vm_compute in Hc. injection Hc as _ Hm. rewrite <- Hm. reflexivity.
Defined.

Example scenario_B_format :
  check_csv_format (csv_reader_plain scenario_B)
  = Returned (false, "Column count mismatch found in the following rows:" ++ nl
                     ++ "Row 3: Expected 2 columns, found 1",
              mk_details 2 [2; 1] [mk_mismatch 3 2 1]).
Proof. vm_compute. reflexivity. Qed.

(** ** Error paths of [check_csv_format] *)

Lemma scan_clean (items : list reader_item) :
  forallb is_record items = true -> exists rows, items = map Rec rows.
Proof.
  induction items as [|[row|e] items IH]; simpl; intros H.
  - now exists [].
  - destruct (IH H) as [rows ->]. now exists (row :: rows).
  - discriminate.
Qed.

Lemma first_raise_records (rows : list (list string)) :
  first_raise (map Rec rows) = None.
Proof. induction rows; simpl; auto. Qed.

Lemma scan_raise (items : list reader_item) (i : nat) (header : list string)
    (d : details) :
  forallb is_record items = false ->
  exists d' e, scan i header items d = (d', Some e) /\ first_raise items = Some e.
Proof.
  revert i d. induction items as [|[row|e] items IH]; simpl; intros i d H.
  - discriminate.
  - apply IH, H.
  - now exists d, e.
Qed.

Lemma check_csv_format_body_fault (src : csv_source) (e : exc) :
  first_fault src = Some e -> exists d, check_csv_format_body src = (d, Raised e).
Proof.
  destruct src as [e'|[|[[|h t]|e'] rest]]; simpl; intros H;
    try (injection H as <-; eexists; reflexivity); try discriminate.
  destruct (forallb is_record rest) eqn:Hr.
  - destruct (scan_clean rest Hr) as [rows ->].
    rewrite first_raise_records in H. discriminate.
  - destruct (scan_raise rest 2 (h :: t) (set_header_columns details_init (S (length t))) Hr)
      as [d' [e' [Hs He]]].
    simpl length. rewrite Hs. rewrite He in H. injection H as <-. now exists d'.
Qed.

(** C5 (amended). The format check never raises.  When the reader raises a
    [csv.Error] it returns an invalid result whose message is
    "CSV format error: " followed by the parser's text; any other exception
    met while opening or reading (e.g. [StopIteration] on an empty file) is
    returned as an invalid result with "Error reading CSV: " and the
    exception's text.  Column-count mismatches are not exceptions either
    (see C1). *)
Theorem check_csv_format_never_raises (src : csv_source) :
  (forall e, check_csv_format src <> Raised e)
  /\ (forall m, first_fault src = Some (CsvError m) ->
        exists d, check_csv_format src = Returned (false, "CSV format error: " ++ m, d))
  /\ (forall e, first_fault src = Some e -> is_csv_error e = false ->
        exists d, check_csv_format src
                  = Returned (false, "Error reading CSV: " ++ exc_str e, d)).
Proof.
  split; [|split].
  - intros e. unfold check_csv_format.
    destruct (check_csv_format_body src) as [d [r|[]]]; discriminate.
  - intros m H. destruct (check_csv_format_body_fault src _ H) as [d Hd].
    exists d. unfold check_csv_format. now rewrite Hd.
  - intros e H He. destruct (check_csv_format_body_fault src _ H) as [d Hd].
    exists d. unfold check_csv_format. rewrite Hd.
    destruct e; simpl in He; try discriminate; reflexivity.
Qed.

(** Witness of C5: a field over the parser's size limit after a valid
    header. *)
Lemma check_csv_format_never_raises_witness :
  first_fault (Opened [Rec ["a"; "b"]; Raise (CsvError "field larger than field limit (131072)")])
    = Some (CsvError "field larger than field limit (131072)")
  /\ exists d, check_csv_format
                 (Opened [Rec ["a"; "b"];
                          Raise (CsvError "field larger than field limit (131072)")])
               = Returned (false, "CSV format error: "
                                  ++ "field larger than field limit (131072)", d).
Proof.
  split; [reflexivity|].
  apply (proj1 (proj2 (check_csv_format_never_raises
    (Opened [Rec ["a"; "b"]; Raise (CsvError "field larger than field limit (131072)")])))).
  reflexivity.
Defined.

(** C5 refuted as stated: where the parser raises [csv.Error], the format
    check returns an invalid result instead of raising. *)
Lemma check_csv_format_raises_counterexample :
  check_csv_format
    (Opened [Rec ["a"; "b"]; Raise (CsvError "field larger than field limit (131072)")])
  = Returned (false, "CSV format error: field larger than field limit (131072)",
              mk_details 2 [] []).
Proof. reflexivity. Qed.

(** C2 refuted as stated: a parser error after a valid header gives an
    invalid result although no mismatch was recorded and the header has two
    fields. *)
Lemma format_valid_iff_counterexample :
  check_csv_format
    (Opened [Rec ["a"; "b"]; Raise (CsvError "field larger than field limit (131072)")])
  = Returned (false, "CSV format error: field larger than field limit (131072)",
              mk_details 2 [] [])
  /\ mismatched_rows (mk_details 2 [] []) = []
  /\ header_columns (mk_details 2 [] []) = 2.
Proof. repeat split. Qed.

(** C2 (amended). For every input, the returned [is_valid] is true iff the
    file was opened and read without any exception, the header was
    non-empty and [mismatched_rows] is empty. *)
Theorem format_valid_iff (src : csv_source) (v : bool) (msg : string) (d : details) :
  check_csv_format src = Returned (v, msg, d) ->
  (v = true <-> reads_cleanly src = true /\ 0 < header_columns d
                /\ mismatched_rows d = []).
Proof.
  unfold check_csv_format. intros H.
  destruct src as [e|[|[[|h t]|e] rest]]; simpl in H.
  - destruct e; (injection H as <- _ <-; simpl;
      split; [discriminate | intros [Hc _]; discriminate]).
  - injection H as <- _ <-; simpl.
    split; [discriminate | intros [_ [Hc _]]; lia].
  - injection H as <- _ <-; simpl.
    split; [discriminate | intros [_ [Hc _]]; lia].
  - destruct (forallb is_record rest) eqn:Hr.
    + destruct (scan_clean rest Hr) as [rows ->].
      rewrite scan_records in H. simpl in H |- *. rewrite Hr.
      destruct (mismatches_from 2 (h :: t) rows) eqn:Hm;
        injection H as <- _ <-; simpl.
      * split; [intros _; split; [reflexivity | split; [lia | reflexivity]] | reflexivity].
      * split; [discriminate | intros [_ [_ Hc]]; discriminate].
    + destruct (scan_raise rest 2 (h :: t)
                  (set_header_columns details_init (S (length t))) Hr)
        as [d' [e [Hs _]]].
      simpl length in H. rewrite Hs in H. simpl. rewrite Hr.
      destruct e; (injection H as <- _ <-;
        split; [discriminate | intros [Hc _]; discriminate]).
  - destruct e; (injection H as <- _ <-; simpl;
      split; [discriminate | intros [Hc _]; discriminate]).
Qed.

(** Witness of C2 on the records of scenario C. *)
Lemma format_valid_iff_witness :
  check_csv_format (csv_reader_plain scenario_C)
    = Returned (true, "CSV format is valid", mk_details 2 [2; 2] [])
  /\ (true = true <-> reads_cleanly (csv_reader_plain scenario_C) = true
                      /\ 0 < header_columns (mk_details 2 [2; 2] [])
                      /\ mismatched_rows (mk_details 2 [2; 2] []) = []).
Proof.
  assert (H : check_csv_format (csv_reader_plain scenario_C)
              = Returned (true, "CSV format is valid", mk_details 2 [2; 2] []))
    by (vm_compute; reflexivity).
  split; [exact H|].
  exact (format_valid_iff _ _ _ _ H).
Defined.

(** ** The driver *)

Lemma validate_returns_arg (exists_ : string -> py_outcome bool) (arg p : string) :
  validate_file_path exists_ arg = Returned p -> p = arg.
Proof.
  unfold validate_file_path.
  destruct (exists_ arg) as [[|]|e]; [destruct (String.eqb _ ".csv")| |]; simpl;
    congruence.
Qed.

Lemma check_csv_format_returns (src : csv_source) :
  exists r, check_csv_format src = Returned r.
Proof.
  unfold check_csv_format.
  destruct (check_csv_format_body src) as [d [r|[]]]; eexists; reflexivity.
Qed.

Lemma check_file_encoding_returns (detect : detector) (f : py_outcome (list byte)) :
  exists r, check_file_encoding detect f = Returned r.
Proof.
  unfold check_file_encoding.
  destruct f as [contents|e]; [destruct (detect (firstn 10000 contents)) as [[enc|]|e]|];
    try destruct (String.eqb (lower enc) "utf-8"); eexists; reflexivity.
Qed.

(** C4. When the first record has no field, the format check returns
    invalid with the message "Empty CSV file", and a run on that file never
    calls the analyzer nor the report formatter. *)
Theorem empty_header_rejected (detect : detector)
    (format_report : analysis_result -> format_result -> string)
    (w : world) (arg : string) (rest : list reader_item) :
  w_csv w arg = Opened (Rec [] :: rest) ->
  check_csv_format (w_csv w arg) = Returned (false, "Empty CSV file", details_init)
  /\ (forall p, ~ In (EvAnalyze p) (fst (main detect format_report w arg)))
  /\ ~ In EvFormatReport (fst (main detect format_report w arg)).
Proof.
  intros Hcsv.
  assert (Hfmt : check_csv_format (w_csv w arg)
                 = Returned (false, "Empty CSV file", details_init))
    by (rewrite Hcsv; reflexivity).
  split; [exact Hfmt|].
  unfold main.
  destruct (validate_file_path (w_exists w) arg) as [p|e] eqn:Hv.
  - apply validate_returns_arg in Hv. subst p.
    destruct (check_file_encoding_returns detect (w_bytes w arg)) as [[[|] info] He].
    + rewrite He, Hfmt. simpl. split; [intros p [H|[]]|intros [H|[]]]; discriminate.
    + rewrite He. simpl. split; [intros p [H|[]]|intros [H|[]]]; discriminate.
  - simpl. split; [intros p [H|[]]|intros [H|[]]]; discriminate.
Qed.

(** Witness of C4: a file whose first line is empty. *)
Lemma empty_header_rejected_witness :
  let w := mk_world (fun _ => Returned true) (fun _ => Returned [])
             (fun _ => csv_reader_plain (text_of [""; "a,b"]))
             (fun _ => Raised (OtherError "unused")) (fun _ _ => None)
             "20261015_120000" in
  w_csv w "data.csv" = Opened (Rec [] :: [Rec ["a"; "b"]])
  /\ check_csv_format (w_csv w "data.csv")
     = Returned (false, "Empty CSV file", details_init)
  /\ (forall p, ~ In (EvAnalyze p)
        (fst (main (fun _ => Returned (Some "utf-8")) (fun _ _ => "") w "data.csv"))).
Proof.
  intros w.
  assert (Hc : w_csv w "data.csv" = Opened (Rec [] :: [Rec ["a"; "b"]]))
    by (vm_compute; reflexivity).
  split; [exact Hc|].
  destruct (empty_header_rejected (fun _ => Returned (Some "utf-8")) (fun _ _ => "")
              w "data.csv" [Rec ["a"; "b"]] Hc) as [H1 [H2 _]].
  split; [exact H1 | exact H2].
Defined.





(** C8. When the path, encoding and format checks pass, the frame loads,
    and writing the report file fails, the run analyses the file, formats
    the report, prints it to standard output, prints a warning to standard
    error and exits with status 0. *)
Theorem main_write_failure (detect : detector)
    (format_report : analysis_result -> format_result -> string)
    (w : world) (arg info msg : string) (d : details) (df : dataframe) (e : exc) :
  validate_file_path (w_exists w) arg = Returned arg ->
  check_file_encoding detect (w_bytes w arg) = Returned (true, info) ->
  check_csv_format (w_csv w arg) = Returned (true, msg, d) ->
  w_read_csv w arg = Returned df ->
  w_write w (report_filename w arg) (format_report (analyze_frame df) (true, msg, d))
    = Some e ->
  main detect format_report w arg
  = ([EvAnalyze arg; EvFormatReport;
      EvStdout (format_report (analyze_frame df) (true, msg, d));
      EvStderr ("Warning: Could not write report to file: " ++ exc_str e)], 0).
Proof.
  intros Hv He Hf Hr Hw. unfold main.
  rewrite Hv, He, Hf. unfold analyze_csv. rewrite Hr.
  unfold write_report_to_file. rewrite Hw. reflexivity.
Qed.

(** Witness of C8: scenario C with a write refused by the filesystem. *)
Lemma main_write_failure_witness :
  main utf8_detector (fun _ _ => "report")
    (scenario_world scenario_C
       (fun _ _ => Some (OSError "[Errno 13] Permission denied")))
    "data.csv"
  = ([EvAnalyze "data.csv"; EvFormatReport; EvStdout "report";
      EvStderr ("Warning: Could not write report to file: "
                ++ "[Errno 13] Permission denied")], 0).
Proof.
  destruct (read_csv_plain scenario_C) as [df|err] eqn:Hdf;
    [|vm_compute in Hdf; discriminate].
  apply (main_write_failure utf8_detector (fun _ _ => "report")
           (scenario_world scenario_C
              (fun _ _ => Some (OSError "[Errno 13] Permission denied")))
           "data.csv" "File is UTF-8 encoded" "CSV format is valid"
           (mk_details 2 [2; 2] []) df (OSError "[Errno 13] Permission denied")).
  - reflexivity.
  - reflexivity.
  - vm_compute. reflexivity.
  - exact Hdf.
  - reflexivity.
Defined.

(** ** [drop_duplicates] and the duplicate count *)

Lemma cell_eqb_eq (a b : cell) : cell_eqb a b = true <-> a = b.
Proof.
  destruct a as [x|x|], b as [y|y|]; simpl; split; intros H; try discriminate;
    try congruence.
  - apply Z.eqb_eq in H. now subst.
  - injection H as ->. apply Z.eqb_refl.
  - apply String.eqb_eq in H. now subst.
  - injection H as ->. apply String.eqb_refl.
Qed.

Lemma row_eqb_eq (r s : frame_row) : row_eqb r s = true <-> r = s.
Proof.
  revert s. induction r as [|a r IH]; intros [|b s]; simpl;
    split; intros H; try discriminate; try congruence.
  - apply andb_true_iff in H as [Ha Hr]. apply cell_eqb_eq in Ha.
    apply IH in Hr. now subst.
  - injection H as -> ->. apply andb_true_iff.
    split; [now apply cell_eqb_eq | now apply IH].
Qed.

Lemma existsb_row_In (r : frame_row) (seen : list frame_row) :
  existsb (row_eqb r) seen = true <-> In r seen.
Proof.
  rewrite existsb_exists. split.
  - intros [x [Hx Hr]]. apply row_eqb_eq in Hr. now subst.
  - intros Hin. exists r. split; [exact Hin | now apply row_eqb_eq].
Qed.

Lemma drop_dup_aux_spec (seen rows : list frame_row) :
  (forall r, In r (drop_dup_aux seen rows) <-> In r rows /\ ~ In r seen)
  /\ NoDup (drop_dup_aux seen rows).
Proof.
  revert seen. induction rows as [|r rows IH]; intros seen; simpl.
  - split; [tauto | constructor].
  - destruct (existsb (row_eqb r) seen) eqn:Hs.
    + apply existsb_row_In in Hs. destruct (IH seen) as [Hin Hnd].
      split; [|exact Hnd]. intros x. rewrite Hin.
      split; [tauto|]. intros [[<- | H] Hn]; [contradiction | tauto].
    + assert (Hns : ~ In r seen)
        by (intros H; apply existsb_row_In in H; congruence).
      destruct (IH (r :: seen)) as [Hin Hnd]. split.
      * intros x. simpl. rewrite Hin. simpl.
        destruct (row_eqb x r) eqn:Hx.
        -- apply row_eqb_eq in Hx. subst x. tauto.
        -- assert (x <> r) by (intros E; apply row_eqb_eq in E; congruence).
           split; [intros [E | [H1 H2]]; [congruence | tauto] |].
           intros [[E | H1] H2]; [congruence | right; split; [exact H1 |]].
           intros [E | E]; [congruence | contradiction].
      * constructor; [|exact Hnd]. intros H. apply Hin in H. simpl in H. tauto.
Qed.

Lemma drop_duplicates_length (rows distinct : list frame_row) :
  NoDup distinct -> (forall r, In r distinct <-> In r rows) ->
  length distinct = length (drop_duplicates rows).
Proof.
  intros Hnd Hd. destruct (drop_dup_aux_spec [] rows) as [Hin Hnd'].
  unfold drop_duplicates.
  apply Nat.le_antisymm; apply NoDup_incl_length; auto; intros x Hx.
  - apply Hin. split; [now apply Hd | auto].
  - apply Hd. now apply Hin in Hx.
Qed.

(** C3. The duplicate count of the analysis is the number of rows minus the
    number of distinct rows (rows compared on all their values); on
    scenario C the format check is valid and the analysis reports one
    duplicate among two rows. *)
Theorem duplicate_rows_distinct (df : dataframe) (distinct : list frame_row) :
  NoDup distinct -> (forall r, In r distinct <-> In r (df_rows df)) ->
  duplicate_rows (analyze_frame df) = total_rows (analyze_frame df) - length distinct
  /\ check_csv_format (csv_reader_plain scenario_C)
     = Returned (true, "CSV format is valid", mk_details 2 [2; 2] [])
  /\ exists r, analyze_csv (read_csv_plain scenario_C) = Returned r
               /\ total_rows r = 2 /\ duplicate_rows r = 1.
Proof.
  intros Hnd Hd. split; [|split].
  - simpl. now rewrite (drop_duplicates_length (df_rows df) distinct Hnd Hd).
  - vm_compute. reflexivity.
  - eexists. split; [vm_compute; reflexivity|]. split; vm_compute; reflexivity.
Qed.

(** Witness of C3 on the frame of scenario C. *)
Lemma duplicate_rows_distinct_witness :
  duplicate_rows (analyze_frame (mk_frame ["a"; "b"] ["int64"; "int64"]
                    [[CInt 1; CInt 2]; [CInt 1; CInt 2]])) = 1.
Proof.
  destruct (duplicate_rows_distinct
              (mk_frame ["a"; "b"] ["int64"; "int64"] [[CInt 1; CInt 2]; [CInt 1; CInt 2]])
              [[CInt 1; CInt 2]]) as [H _].
  - constructor; [intros [] | constructor].
  - intros r. simpl. tauto.
  - rewrite H. reflexivity.
Defined.

(** ** [check_file_encoding] *)

Lemma firstn_firstn_same (n : nat) (l : list byte) : firstn n (firstn n l) = firstn n l.
Proof. rewrite firstn_firstn, Nat.min_id. reflexivity. Qed.

(** C7. The encoding check only depends on the first 10,000 bytes of the
    file, which are what the detector sees; it succeeds iff the detected
    encoding name lowercases to "utf-8"; for any other detected name it
    fails with a message naming it. *)
Theorem check_file_encoding_utf8 (detect : detector) (contents : list byte) :
  check_file_encoding detect (Returned contents)
    = check_file_encoding detect (Returned (firstn 10000 contents))
  /\ length (firstn 10000 contents) <= 10000
  /\ (enc_ok (check_file_encoding detect (Returned contents)) = true
      <-> exists enc, detect (firstn 10000 contents) = Returned (Some enc)
                      /\ lower enc = "utf-8")
  /\ (forall enc, detect (firstn 10000 contents) = Returned (Some enc) ->
        lower enc <> "utf-8" ->
        check_file_encoding detect (Returned contents)
        = Returned (false, "File is " ++ enc ++ " encoded, not UTF-8")).
Proof.
  split; [|split; [|split]].
  - unfold check_file_encoding. now rewrite firstn_firstn_same.
  - apply firstn_le_length.
  - unfold check_file_encoding.
    destruct (detect (firstn 10000 contents)) as [[enc|]|e]; simpl.
    + destruct (String.eqb (lower enc) "utf-8") eqn:E; simpl.
      * apply String.eqb_eq in E. split; [intros _; now exists enc | reflexivity].
      * apply String.eqb_neq in E. split; [discriminate|].
        intros [enc' [H1 H2]]. injection H1 as <-. contradiction.
    + split; [discriminate | intros [enc' [H _]]; discriminate].
    + split; [discriminate | intros [enc' [H _]]; discriminate].
  - intros enc Hd Hl. unfold check_file_encoding. rewrite Hd.
    apply String.eqb_neq in Hl. now rewrite Hl.
Qed.

(** Witness of C7: a detector naming ["ISO-8859-1"]. *)
Lemma check_file_encoding_utf8_witness :
  check_file_encoding (fun _ => Returned (Some "ISO-8859-1")) (Returned [x41; xe9])
  = Returned (false, "File is ISO-8859-1 encoded, not UTF-8").
Proof.
  apply (proj2 (proj2 (proj2 (check_file_encoding_utf8
           (fun _ => Returned (Some "ISO-8859-1")) [x41; xe9]))) "ISO-8859-1").
  - reflexivity.
  - vm_compute. discriminate.
Defined.

(** C10. The encoding check always returns a pair: when the file cannot be
    opened or read, when the detector raises, and when it detects no
    encoding, it returns [(False, "Error checking file encoding: ...")]. *)
Theorem check_file_encoding_total (detect : detector) (file : py_outcome (list byte)) :
  (exists r, check_file_encoding detect file = Returned r)
  /\ (forall e, file = Raised e ->
        check_file_encoding detect file
        = Returned (false, "Error checking file encoding: " ++ exc_str e))
  /\ (forall contents e, file = Returned contents ->
        detect (firstn 10000 contents) = Raised e ->
        check_file_encoding detect file
        = Returned (false, "Error checking file encoding: " ++ exc_str e))
  /\ (forall contents, file = Returned contents ->
        detect (firstn 10000 contents) = Returned None ->
        check_file_encoding detect file
        = Returned (false, "Error checking file encoding: "
                           ++ "'NoneType' object has no attribute 'lower'")).
Proof.
  split; [apply check_file_encoding_returns|].
  split; [|split].
  - intros e ->. reflexivity.
  - intros contents e -> Hd. unfold check_file_encoding. now rewrite Hd.
  - intros contents -> Hd. unfold check_file_encoding. now rewrite Hd.
Qed.

(** Witness of C10: an empty file, on which [chardet] detects nothing. *)
Lemma check_file_encoding_total_witness :
  check_file_encoding (fun raw => Returned (match raw with [] => None | _ => Some "ascii" end))
    (Returned [])
  = Returned (false, "Error checking file encoding: "
                     ++ "'NoneType' object has no attribute 'lower'").
Proof.
  apply (proj2 (proj2 (proj2 (check_file_encoding_total
    (fun raw => Returned (match raw with [] => None | _ => Some "ascii" end))
    (Returned []))))) with (contents := []); reflexivity.
Defined.

(** ** [validate_file_path] *)




(** * Further properties of the program *)

(** ** The alignment block of [format_report] *)

Lemma insert_unique_In (x y : nat) (l : list nat) :
  In y (insert_unique x l) <-> x = y \/ In y l.
Proof.
  induction l as [|z l IH]; simpl; [tauto|].
  destruct (x <? z) eqn:E1; [simpl; tauto|].
  destruct (x =? z) eqn:E2.
  - apply Nat.eqb_eq in E2. subst. simpl. intuition.
  - simpl. rewrite IH. tauto.
Qed.

Lemma insert_unique_sorted (x : nat) (l : list nat) :
  StronglySorted lt l -> StronglySorted lt (insert_unique x l).
Proof.
  induction 1 as [|z l Hs IH Hf]; simpl.
  - repeat constructor.
  - destruct (x <? z) eqn:E1.
    + apply Nat.ltb_lt in E1. constructor; [constructor; assumption|].
      constructor; [exact E1|]. rewrite Forall_forall in Hf |- *.
      intros a Ha. specialize (Hf a Ha). lia.
    + destruct (x =? z) eqn:E2; [constructor; assumption|].
      apply Nat.ltb_ge in E1. apply Nat.eqb_neq in E2.
      constructor; [exact IH|]. rewrite Forall_forall in Hf |- *.
      intros a Ha. apply insert_unique_In in Ha as [<- | Ha]; [lia | auto].
Qed.

Lemma sorted_set_In (l : list nat) (x : nat) : In x (sorted_set l) <-> In x l.
Proof.
  induction l as [|y l IH]; simpl; [tauto|].
  rewrite insert_unique_In, IH. intuition.
Qed.

Lemma sorted_set_sorted (l : list nat) : StronglySorted lt (sorted_set l).
Proof.
  induction l as [|y l IH]; simpl; [constructor|]. now apply insert_unique_sorted.
Qed.

Lemma sorted_set_const (k : nat) (l : list nat) :
  l <> [] -> Forall (eq k) l -> sorted_set l = [k].
Proof.
  induction l as [|y l IH]; intros Hne Hf; [congruence|].
  inversion Hf as [|? ? Hy Hl]; subst y. simpl.
  destruct l as [|y' l'].
  - reflexivity.
  - rewrite IH by (discriminate || exact Hl). simpl.
    rewrite Nat.ltb_irrefl, Nat.eqb_refl. reflexivity.
Qed.

(** The scan of a stream without exceptions, and when it is valid. *)
Lemma check_records (header : list string) (rows : list (list string))
    (v : bool) (msg : string) (d : details) :
  header <> [] ->
  check_csv_format (Opened (Rec header :: map Rec rows)) = Returned (v, msg, d) ->
  d = mk_details (length header) (map (@length string) rows)
                 (mismatches_from 2 header rows)
  /\ (v = true <-> forallb (fun r => length r =? length header) rows = true).
Proof.
  intros Hh. rewrite <- (mismatches_from_nil 2).
  unfold check_csv_format, check_csv_format_body.
  destruct header as [|h t]; [congruence|]. rewrite scan_records. simpl.
  destruct (mismatches_from 2 (h :: t) rows) eqn:Hm; intros H;
    injection H as <- _ <-; (split; [reflexivity|]); intuition discriminate.
Qed.

Lemma valid_rows_width (header : list string) (rows : list (list string)) :
  forallb (fun r => length r =? length header) rows = true ->
  Forall (eq (length header)) (map (@length string) rows).
Proof.
  intros H. apply Forall_map. rewrite Forall_forall. intros r Hr.
  rewrite forallb_forall in H. specialize (H r Hr). apply Nat.eqb_eq in H. auto.
Qed.

(** When the format check of a stream is valid, the alignment block of the
    report states the header's column count and, when there are data
    rows, that all of them have that many columns; the warning about
    several column counts never appears. *)
Theorem valid_format_alignment (header : list string) (rows : list (list string))
    (msg : string) (d : details) :
  header <> [] ->
  check_csv_format (Opened (Rec header :: map Rec rows)) = Returned (true, msg, d) ->
  alignment_lines d
  = app [nl ++ "Column Alignment Details"; repeat_str "-" 20;
         "Header columns: " ++ str_of_nat (length header)]
        (match rows with
         | [] => []
         | _ => ["All data rows have " ++ str_of_nat (length header) ++ " columns"]
         end).
Proof.
  intros Hh H. destruct (check_records header rows true msg d Hh H) as [-> [Hv _]].
  specialize (Hv eq_refl). unfold alignment_lines. simpl header_columns.
  destruct header as [|h t]; [congruence|]. simpl (0 <? length (h :: t)).
  simpl data_columns. destruct rows as [|r rows']; [reflexivity|].
  rewrite (sorted_set_const (length (h :: t))) by
    (discriminate || now apply valid_rows_width).
  simpl. simpl in Hv. apply andb_true_iff in Hv as [Hr _].
  apply Nat.eqb_eq in Hr. rewrite Hr. reflexivity.
Qed.

Lemma valid_format_alignment_witness :
  alignment_lines (mk_details 2 [2; 2] [])
  = [nl ++ "Column Alignment Details"; repeat_str "-" 20; "Header columns: 2";
     "All data rows have 2 columns"].
Proof.
  apply (valid_format_alignment ["a"; "b"] [["1"; "2"]; ["1"; "2"]]
           "CSV format is valid").
  - discriminate.
  - reflexivity.
Defined.

(** When the data rows have at least two different column counts, the
    block carries the warning and lists the distinct counts, each once, in
    ascending order. *)
Theorem mixed_counts_alignment (d : details) (x y : nat) :
  0 < header_columns d -> In x (data_columns d) -> In y (data_columns d) -> x <> y ->
  exists counts,
    alignment_lines d
    = [nl ++ "Column Alignment Details"; repeat_str "-" 20;
       "Header columns: " ++ str_of_nat (header_columns d);
       "Warning: Multiple column counts found in data rows";
       "Column counts found: " ++ join_comma (map str_of_nat counts)]
    /\ StronglySorted lt counts
    /\ (forall z, In z counts <-> In z (data_columns d)).
Proof.
  intros Hh Hx Hy Hxy. exists (sorted_set (data_columns d)).
  split; [|split; [apply sorted_set_sorted | apply sorted_set_In]].
  unfold alignment_lines. apply Nat.ltb_lt in Hh. rewrite Hh.
  assert (Hlen : 1 < length (sorted_set (data_columns d))).
  { apply sorted_set_In in Hx, Hy.
    destruct (sorted_set (data_columns d)) as [|a [|b l]]; simpl in *; lia. }
  apply Nat.ltb_lt in Hlen.
  destruct (data_columns d) as [|c0 cs]; [contradiction|]. rewrite Hlen. reflexivity.
Qed.

Lemma mixed_counts_alignment_witness :
  exists counts,
    alignment_lines (mk_details 2 [3; 2; 1; 3] [])
    = [nl ++ "Column Alignment Details"; repeat_str "-" 20; "Header columns: 2";
       "Warning: Multiple column counts found in data rows";
       "Column counts found: " ++ join_comma (map str_of_nat counts)]
    /\ StronglySorted lt counts
    /\ (forall z, In z counts <-> In z [3; 2; 1; 3]).
Proof.
  apply (mixed_counts_alignment (mk_details 2 [3; 2; 1; 3] []) 3 1); simpl; auto.
Defined.

(** ** [analyze_csv] *)

Lemma nunique_aux_bound (seen cs : list cell) :
  nunique_aux seen cs <= length seen + length (filter (fun c => negb (is_nan c)) cs).
Proof.
  revert seen. induction cs as [|c cs IH]; intros seen; simpl; [lia|].
  destruct (is_nan c) eqn:En; simpl.
  - apply IH.
  - destruct (existsb (cell_eqb c) seen).
    + specialize (IH seen). lia.
    + specialize (IH (c :: seen)). simpl in IH. lia.
Qed.

Lemma nunique_bound (cs : list cell) :
  nunique cs + length (filter is_nan cs) <= length cs.
Proof.
  unfold nunique. pose proof (nunique_aux_bound [] cs) as H.
  pose proof (filter_length is_nan cs). simpl in H. lia.
Qed.

(** The analysis has one null count and one statistics entry per column,
    in the frame's column order, and for every column the number of
    distinct values plus the number of missing values is at most the
    number of rows. *)
Theorem analysis_per_column (df : dataframe) (j : nat) :
  j < total_columns (analyze_frame df) ->
  exists col nulls uniq dtype,
    nth_error (columns (analyze_frame df)) j = Some col
    /\ nth_error (null_counts (analyze_frame df)) j = Some (col, nulls)
    /\ nth_error (column_stats (analyze_frame df)) j = Some (col, (uniq, dtype))
    /\ uniq + nulls <= total_rows (analyze_frame df).
Proof.
  simpl. intros Hj.
  exists (nth j (df_columns df) ""), (length (filter is_nan (column_cells df j))),
    (nunique (column_cells df j)), (nth j (df_dtypes df) "object").
  rewrite !nth_error_map, nth_error_seq. apply Nat.ltb_lt in Hj as Hj'. rewrite Hj'.
  simpl. split; [now apply nth_error_nth'|]. split; [reflexivity|]. split; [reflexivity|].
  pose proof (nunique_bound (column_cells df j)) as H.
  assert (Hl : length (column_cells df j) = length (df_rows df))
    by (unfold column_cells; apply length_map).
  lia.
Qed.

Lemma analysis_per_column_witness :
  exists col nulls uniq dtype,
    nth_error (columns (analyze_frame (mk_frame ["a"; "b"] ["int64"; "float64"]
                 [[CInt 1; CNaN]; [CInt 1; CInt 2]]))) 1 = Some col
    /\ nth_error (null_counts (analyze_frame (mk_frame ["a"; "b"] ["int64"; "float64"]
                 [[CInt 1; CNaN]; [CInt 1; CInt 2]]))) 1 = Some (col, nulls)
    /\ nth_error (column_stats (analyze_frame (mk_frame ["a"; "b"] ["int64"; "float64"]
                 [[CInt 1; CNaN]; [CInt 1; CInt 2]]))) 1 = Some (col, (uniq, dtype))
    /\ uniq + nulls <= total_rows (analyze_frame (mk_frame ["a"; "b"] ["int64"; "float64"]
                 [[CInt 1; CNaN]; [CInt 1; CInt 2]])).
Proof. apply analysis_per_column. simpl. lia. Defined.

(** The duplicate count never exceeds the number of rows, and it is zero
    exactly when no two rows are equal. *)
Theorem duplicate_rows_zero_iff (df : dataframe) :
  duplicate_rows (analyze_frame df) <= total_rows (analyze_frame df)
  /\ (duplicate_rows (analyze_frame df) = 0 <-> NoDup (df_rows df)).
Proof.
  simpl. destruct (drop_dup_aux_spec [] (df_rows df)) as [Hin Hnd].
  assert (Hle : length (drop_duplicates (df_rows df)) <= length (df_rows df)).
  { apply NoDup_incl_length; [exact Hnd|]. intros x Hx. now apply Hin in Hx. }
  split; [lia|]. split.
  - intros H0. apply NoDup_incl_NoDup with (l := drop_duplicates (df_rows df));
      [exact Hnd | lia |].
    intros x Hx. apply Hin in Hx. tauto.
  - intros Hnd'. rewrite <- (drop_duplicates_length (df_rows df) (df_rows df) Hnd')
      by tauto. lia.
Qed.

(** ** Exceptions in the middle of the scan *)

Lemma scan_records_app (rows : list (list string)) (items : list reader_item)
    (i : nat) (header : list string) (d : details) :
  scan i header (app (map Rec rows) items) d
  = scan (i + length rows) header items
      (mk_details (header_columns d) (app (data_columns d) (map (@length string) rows))
                  (app (mismatched_rows d) (mismatches_from i header rows))).
Proof.
  revert i d. induction rows as [|r rows IH]; intros i d; simpl.
  - destruct d; simpl. now rewrite Nat.add_0_r, !app_nil_r.
  - rewrite IH, Nat.add_succ_r. f_equal.
    destruct (negb (length r =? length header)); simpl; now rewrite <- !app_assoc.
Qed.

(** When the reader raises after some data rows, the check returns an
    invalid result carrying the exception's text, and its details still
    hold the column counts and the mismatches of the rows read before the
    exception. *)
Theorem check_csv_format_error_keeps_details (header : list string)
    (rows : list (list string)) (e : exc) (rest : list reader_item) :
  header <> [] ->
  check_csv_format (Opened (Rec header :: app (map Rec rows) (Raise e :: rest)))
  = Returned (false, (if is_csv_error e then "CSV format error: "
                      else "Error reading CSV: ") ++ exc_str e,
              mk_details (length header) (map (@length string) rows)
                         (mismatches_from 2 header rows)).
Proof.
  intros Hh. unfold check_csv_format, check_csv_format_body.
  destruct header as [|h t]; [congruence|]. rewrite scan_records_app. simpl.
  destruct e; reflexivity.
Qed.

Lemma check_csv_format_error_keeps_details_witness :
  check_csv_format (Opened (Rec ["a"; "b"] :: app (map Rec [["1"; "2"]; ["3"]])
                      [Raise (UnicodeDecodeError "invalid start byte")]))
  = Returned (false, "Error reading CSV: invalid start byte",
              mk_details 2 [2; 1] [mk_mismatch 3 2 1]).
Proof.
  apply (check_csv_format_error_keeps_details ["a"; "b"] [["1"; "2"]; ["3"]]
           (UnicodeDecodeError "invalid start byte") []).
  discriminate.
Defined.

(** ** Runs of [main] *)

(** A run that passes every check and writes its report prints the report,
    writes a file with exactly that text, names the file on standard
    output and exits with status 0. *)
Theorem main_success (detect : detector)
    (format_report : analysis_result -> format_result -> string)
    (w : world) (arg info msg : string) (d : details) (df : dataframe) :
  validate_file_path (w_exists w) arg = Returned arg ->
  check_file_encoding detect (w_bytes w arg) = Returned (true, info) ->
  check_csv_format (w_csv w arg) = Returned (true, msg, d) ->
  w_read_csv w arg = Returned df ->
  w_write w (report_filename w arg) (format_report (analyze_frame df) (true, msg, d))
    = None ->
  main detect format_report w arg
  = ([EvAnalyze arg; EvFormatReport;
      EvStdout (format_report (analyze_frame df) (true, msg, d));
      EvWrite (report_filename w arg) (format_report (analyze_frame df) (true, msg, d));
      EvStdout (nl ++ "Report has been written to: " ++ report_filename w arg)], 0).
Proof.
  intros Hv He Hf Hr Hw. unfold main.
  rewrite Hv, He, Hf. unfold analyze_csv. rewrite Hr.
  unfold write_report_to_file. rewrite Hw. reflexivity.
Qed.

Lemma main_success_witness :
  main utf8_detector (fun _ _ => "report") (scenario_world scenario_C (fun _ _ => None))
    "data.csv"
  = ([EvAnalyze "data.csv"; EvFormatReport; EvStdout "report";
      EvWrite "data_validation_report_20261015_120000.txt" "report";
      EvStdout (nl ++ "Report has been written to: "
                ++ "data_validation_report_20261015_120000.txt")], 0).
Proof.
  destruct (read_csv_plain scenario_C) as [df|err] eqn:Hdf;
    [|vm_compute in Hdf; discriminate].
  apply (main_success utf8_detector (fun _ _ => "report")
           (scenario_world scenario_C (fun _ _ => None))
           "data.csv" "File is UTF-8 encoded" "CSV format is valid"
           (mk_details 2 [2; 2] []) df).
  - reflexivity.
  - reflexivity.
  - vm_compute. reflexivity.
  - exact Hdf.
  - reflexivity.
Defined.

(** A run exits with status 0 or 1, and with 0 exactly when the path is
    valid, the file is detected as UTF-8, the format check is valid and
    pandas loads the file. *)
Theorem main_exit_status (detect : detector)
    (format_report : analysis_result -> format_result -> string)
    (w : world) (arg : string) :
  (snd (main detect format_report w arg) = 0
   \/ snd (main detect format_report w arg) = 1)
  /\ (snd (main detect format_report w arg) = 0
      <-> exists info msg d df,
            validate_file_path (w_exists w) arg = Returned arg
            /\ check_file_encoding detect (w_bytes w arg) = Returned (true, info)
            /\ check_csv_format (w_csv w arg) = Returned (true, msg, d)
            /\ w_read_csv w arg = Returned df).
Proof.
  unfold main.
  destruct (validate_file_path (w_exists w) arg) as [p|e] eqn:Hv.
  2:{ simpl. split; [auto|]. split; [discriminate|].
      intros [info [msg [d [df [H _]]]]]. congruence. }
  pose proof (validate_returns_arg _ _ _ Hv). subst p.
  destruct (check_file_encoding_returns detect (w_bytes w arg)) as [[ok info] He].
  rewrite He. destruct ok.
  2:{ simpl. split; [auto|]. split; [discriminate|].
      intros [info' [msg [d [df [_ [H _]]]]]]. congruence. }
  destruct (check_csv_format_returns (w_csv w arg)) as [[[v msg] d] Hf].
  rewrite Hf.
  destruct v.
  2:{ simpl. split; [auto|]. split; [discriminate|].
      intros [info' [msg' [d' [df [_ [_ [H _]]]]]]]. congruence. }
  unfold analyze_csv. destruct (w_read_csv w arg) as [df|e] eqn:Hr.
  - unfold write_report_to_file.
    destruct (w_write w _ _); simpl; (split; [auto|]); split; try reflexivity;
      intros _; exists info, msg, d, df; auto.
  - simpl. split; [auto|]. split; [discriminate|].
    intros [info' [msg' [d' [df [_ [_ [_ H]]]]]]]. congruence.
Qed.

(** When pandas fails to load a file that passed every check, the run has
    called the analyzer, prints one error message (the handler's, with
    "Error: " for a [ValueError] or one of its subclasses, such as pandas'
    parser errors or a [UnicodeDecodeError], and "Unexpected error: "
    otherwise), writes nothing and exits with 1. *)
Theorem main_analysis_failure (detect : detector)
    (format_report : analysis_result -> format_result -> string)
    (w : world) (arg info msg : string) (d : details) (e : exc) :
  validate_file_path (w_exists w) arg = Returned arg ->
  check_file_encoding detect (w_bytes w arg) = Returned (true, info) ->
  check_csv_format (w_csv w arg) = Returned (true, msg, d) ->
  w_read_csv w arg = Raised e ->
  main detect format_report w arg = ([EvAnalyze arg; EvStderr (main_handler e)], 1).
Proof.
  intros Hv He Hf Hr. unfold main.
  rewrite Hv, He, Hf. unfold analyze_csv. rewrite Hr. reflexivity.
Qed.

Lemma main_analysis_failure_witness :
  main utf8_detector (fun _ _ => "")
    (mk_world (fun _ => Returned true) (fun _ => Returned []) (fun _ => csv_reader_plain scenario_C)
       (fun _ => Raised (UnicodeDecodeError "invalid continuation byte")) (fun _ _ => None) "")
    "data.csv"
  = ([EvAnalyze "data.csv"; EvStderr "Error: invalid continuation byte"], 1).
Proof.
  apply (main_analysis_failure utf8_detector (fun _ _ => "")
    (mk_world (fun _ => Returned true) (fun _ => Returned []) (fun _ => csv_reader_plain scenario_C)
       (fun _ => Raised (UnicodeDecodeError "invalid continuation byte")) (fun _ _ => None) "")
    "data.csv" "File is UTF-8 encoded" "CSV format is valid" (mk_details 2 [2; 2] [])
    (UnicodeDecodeError "invalid continuation byte")).
  - reflexivity.
  - reflexivity.
  - vm_compute. reflexivity.
  - reflexivity.
Defined.

(** An empty file (the reader yields no record) is not reported as
    "Empty CSV file": [next(reader)] raises [StopIteration], the check
    returns "Error reading CSV: " with an empty text, and the run prints
    that error and exits with 1. *)
Theorem main_empty_file (detect : detector)
    (format_report : analysis_result -> format_result -> string)
    (w : world) (arg info : string) :
  validate_file_path (w_exists w) arg = Returned arg ->
  check_file_encoding detect (w_bytes w arg) = Returned (true, info) ->
  w_csv w arg = Opened [] ->
  check_csv_format (w_csv w arg) = Returned (false, "Error reading CSV: ", details_init)
  /\ main detect format_report w arg = ([EvStderr "Error: Error reading CSV: "], 1).
Proof.
  intros Hv He Hc. assert (Hf : check_csv_format (w_csv w arg)
    = Returned (false, "Error reading CSV: ", details_init)) by (rewrite Hc; reflexivity).
  split; [exact Hf|]. unfold main. rewrite Hv, He, Hf. reflexivity.
Qed.

Lemma main_empty_file_witness :
  main (fun _ => Returned (Some "UTF-8")) (fun _ _ => "")
    (scenario_world "" (fun _ _ => None)) "empty.csv"
  = ([EvStderr "Error: Error reading CSV: "], 1).
Proof.
  apply (main_empty_file (fun _ => Returned (Some "UTF-8")) (fun _ _ => "")
           (scenario_world "" (fun _ _ => None)) "empty.csv" "File is UTF-8 encoded");
    reflexivity.
Defined.

(** ** [Path.name], [Path.suffix], [Path.stem] and the report's name *)

Definition chars (s : string) : list ascii := list_ascii_of_string s.

Lemma chars_app (a b : string) : chars (a ++ b) = app (chars a) (chars b).
Proof. induction a as [|c a IH]; simpl; [reflexivity|]. unfold chars in *. now rewrite IH. Qed.

Lemma str_length_app (a b : string) :
  String.length (a ++ b) = String.length a + String.length b.
Proof. induction a as [|c a IH]; simpl; auto. Qed.

Lemma not_in_chars (c : ascii) (s : string) :
  existsb (Ascii.eqb c) (chars s) = false -> ~ In c (chars s).
Proof.
  intros H Hin. assert (Hc : existsb (Ascii.eqb c) (chars s) = true).
  { apply existsb_exists. exists c. split; [exact Hin | apply Ascii.eqb_refl]. }
  congruence.
Qed.

Lemma split_on_nonempty (c : ascii) (s : string) : split_on c s <> [].
Proof.
  induction s as [|x s IH]; simpl; [discriminate|].
  destruct (split_on c s); [contradiction|]. destruct (Ascii.eqb x c); discriminate.
Qed.

Lemma split_on_app (c : ascii) (a b : string) :
  split_on c (a ++ String c b) = app (split_on c a) (split_on c b).
Proof.
  induction a as [|x a IH]; simpl.
  - rewrite Ascii.eqb_refl. destruct (split_on c b) eqn:E; [|reflexivity].
    exfalso. exact (split_on_nonempty c b E).
  - rewrite IH. destruct (split_on c a) as [|f fs] eqn:E.
    + exfalso. exact (split_on_nonempty c a E).
    + destruct (Ascii.eqb x c); reflexivity.
Qed.

Lemma split_on_no_sep (c : ascii) (s : string) :
  ~ In c (chars s) -> split_on c s = [s].
Proof.
  induction s as [|x s IH]; simpl; intros H; [reflexivity|].
  rewrite IH by tauto. destruct (Ascii.eqb x c) eqn:E; [|reflexivity].
  apply Ascii.eqb_eq in E. subst. tauto.
Qed.

Lemma split_on_parts (c : ascii) (s x : string) :
  In x (split_on c s) -> ~ In c (chars x).
Proof.
  revert x. induction s as [|y s IH]; simpl; intros x Hx.
  - destruct Hx as [<-|[]]. simpl. tauto.
  - destruct (split_on c s) as [|f fs] eqn:E; [destruct Hx|].
    destruct (Ascii.eqb y c) eqn:Ey.
    + destruct Hx as [<-|Hx]; [simpl; tauto|]. apply IH. exact Hx.
    + destruct Hx as [<-|Hx].
      * simpl. intros [Hc|Hc]; [subst; now rewrite Ascii.eqb_refl in Ey|].
        apply (IH f); [left; reflexivity | exact Hc].
      * apply IH. right. exact Hx.
Qed.

(** The extension test looks at the last path component only: for any
    directory part, the name of [dir/n] is [n], and an existing [dir/n] is
    accepted exactly when the suffix of [n], lowercased, is ".csv". *)
Theorem validate_last_component (w : world) (dir n : string) :
  ~ In "/"%char (chars n) -> n <> "" -> n <> "." ->
  path_name (dir ++ "/" ++ n) = n
  /\ (w_exists w (dir ++ "/" ++ n) = Returned true ->
      ((exists p, validate_file_path (w_exists w) (dir ++ "/" ++ n) = Returned p)
       <-> lower (path_suffix n) = ".csv")).
Proof.
  intros Hs He Hd.
  assert (Hn : path_name (dir ++ "/" ++ n) = n).
  { unfold path_name. change ("/" ++ n) with (String "/" n).
    rewrite split_on_app, (split_on_no_sep _ n Hs), filter_app. simpl.
    destruct (String.eqb n "") eqn:E1; [apply String.eqb_eq in E1; congruence|].
    destruct (String.eqb n ".") eqn:E2; [apply String.eqb_eq in E2; congruence|].
    simpl. rewrite rev_app_distr. reflexivity. }
  split; [exact Hn|]. intros Hex. unfold validate_file_path. rewrite Hex, Hn. simpl.
  destruct (String.eqb (lower (path_suffix n)) ".csv") eqn:E; simpl.
  - apply String.eqb_eq in E. split; [auto | intros _; eexists; reflexivity].
  - apply String.eqb_neq in E. split; [intros [p Hp]; discriminate | intros H; contradiction].
Qed.

Lemma validate_last_component_witness :
  path_name ("archive.csv" ++ "/" ++ "notes.txt") = "notes.txt"
  /\ (w_exists (scenario_world "" (fun _ _ => None)) ("archive.csv" ++ "/" ++ "notes.txt")
        = Returned true ->
      ((exists p, validate_file_path (fun _ => Returned true) ("archive.csv" ++ "/" ++ "notes.txt")
                  = Returned p)
       <-> lower (path_suffix "notes.txt") = ".csv")).
Proof.
  apply (validate_last_component (scenario_world "" (fun _ _ => None))
           "archive.csv" "notes.txt").
  - apply not_in_chars. reflexivity.
  - discriminate.
  - discriminate.
Defined.

(** A file whose name is ".csv" (a dot file) has no suffix, so an existing
    path with that last component is refused with [ValueError]. *)
Theorem validate_dotfile_rejected (w : world) (arg : string) :
  w_exists w arg = Returned true -> path_name arg = ".csv" ->
  validate_file_path (w_exists w) arg
  = Raised (ValueError ("The file " ++ arg ++ " is not a CSV file")).
Proof.
  intros Hex Hn. unfold validate_file_path. rewrite Hex, Hn. reflexivity.
Qed.

Lemma validate_dotfile_rejected_witness :
  validate_file_path (fun _ => Returned true) "data/.csv"
  = Raised (ValueError "The file data/.csv is not a CSV file").
Proof.
  apply (validate_dotfile_rejected (scenario_world "" (fun _ _ => None))); reflexivity.
Defined.

Lemma substring_0_full (s : string) : substring 0 (String.length s) s = s.
Proof. induction s as [|c s IH]; simpl; [reflexivity | now rewrite IH]. Qed.

Lemma substring_split (s : string) (i : nat) :
  i <= String.length s ->
  substring 0 i s ++ substring i (String.length s - i) s = s.
Proof.
  revert i. induction s as [|c s IH]; intros i Hi; simpl in *.
  - destruct i; reflexivity.
  - destruct i as [|i]; simpl.
    + now rewrite substring_0_full.
    + rewrite IH by lia. reflexivity.
Qed.

(** [name == name.stem + name.suffix] for every name. *)
Theorem stem_suffix_roundtrip (name : string) : path_stem name ++ path_suffix name = name.
Proof.
  unfold path_stem, path_suffix. destruct (rfind "." name) as [i|].
  - destruct ((0 <? i) && (i <? String.length name - 1)) eqn:E.
    + apply andb_true_iff in E as [_ E]. apply Nat.ltb_lt in E.
      apply substring_split. lia.
    + apply str_app_nil_r.
  - apply str_app_nil_r.
Qed.

Lemma rfind_aux_app (c : ascii) (a b : string) (i : nat) (f : option nat) :
  rfind_aux c (a ++ b) i f = rfind_aux c b (i + String.length a) (rfind_aux c a i f).
Proof.
  revert i f. induction a as [|x a IH]; intros i f; simpl.
  - now rewrite Nat.add_0_r.
  - rewrite IH. now rewrite Nat.add_succ_r.
Qed.

Lemma rfind_aux_absent (c : ascii) (b : string) (i : nat) (f : option nat) :
  ~ In c (chars b) -> rfind_aux c b i f = f.
Proof.
  revert i f. induction b as [|x b IH]; intros i f H; simpl; [reflexivity|].
  destruct (Ascii.eqb x c) eqn:E.
  - apply Ascii.eqb_eq in E. subst. simpl in H. tauto.
  - apply IH. simpl in H. tauto.
Qed.

Lemma substring_0_app (a b : string) : substring 0 (String.length a) (a ++ b) = a.
Proof. induction a as [|c a IH]; simpl; [destruct b; reflexivity | now rewrite IH]. Qed.

Lemma substring_after_app (a b : string) (m : nat) :
  substring (String.length a) m (a ++ b) = substring 0 m b.
Proof. induction a as [|c a IH]; simpl; auto. Qed.

Lemma split_extension (n ext : string) :
  n <> "" -> ext <> "" -> ~ In "."%char (chars ext) ->
  path_suffix (n ++ String "." ext) = String "." ext
  /\ path_stem (n ++ String "." ext) = n.
Proof.
  intros Hn He Hd.
  assert (Hr : rfind "." (n ++ String "." ext) = Some (String.length n)).
  { unfold rfind. rewrite rfind_aux_app. simpl.
    now rewrite rfind_aux_absent by exact Hd. }
  assert (Hc : (0 <? String.length n)
               && (String.length n <? String.length (n ++ String "." ext) - 1) = true).
  { rewrite str_length_app. simpl.
    destruct n; [congruence|]. destruct ext; [congruence|]. simpl.
    try (apply andb_true_iff; split); apply Nat.ltb_lt; lia. }
  unfold path_suffix, path_stem. rewrite Hr, Hc. split.
  - rewrite substring_after_app, str_length_app.
    replace (String.length n + String.length (String "." ext) - String.length n)
      with (String.length (String "." ext)) by lia.
    apply substring_0_full.
  - apply substring_0_app.
Qed.

(** For a non-empty base [n] and a non-empty extension [ext] without a dot,
    the suffix of [n.ext] is [.ext] and its stem is [n]. *)
Theorem stem_suffix_of_extension (n ext : string) :
  n <> "" -> ext <> "" -> ~ In "."%char (chars ext) ->
  path_suffix (n ++ String "." ext) = String "." ext
  /\ path_stem (n ++ String "." ext) = n.
Proof. exact (split_extension n ext). Qed.

Lemma stem_suffix_of_extension_witness :
  path_suffix ("report.v2" ++ String "." "CSV") = String "." "CSV"
  /\ path_stem ("report.v2" ++ String "." "CSV") = "report.v2".
Proof.
  apply stem_suffix_of_extension; [discriminate | discriminate |].
  apply not_in_chars. reflexivity.
Defined.

(** The report of an input whose last component is [n.ext] is named
    [n_validation_report_<timestamp>.txt]. *)
Theorem report_filename_of_input (w : world) (arg n ext : string) :
  n <> "" -> ext <> "" -> ~ In "."%char (chars ext) ->
  path_name arg = n ++ String "." ext ->
  report_filename w arg = n ++ "_validation_report_" ++ w_timestamp w ++ ".txt".
Proof.
  intros Hn He Hd Ha. unfold report_filename. rewrite Ha.
  now rewrite (proj2 (split_extension n ext Hn He Hd)).
Qed.

Lemma report_filename_of_input_witness :
  report_filename (scenario_world "" (fun _ _ => None)) "in/sales.CSV"
  = "sales_validation_report_20261015_120000.txt".
Proof.
  rewrite (report_filename_of_input (scenario_world "" (fun _ _ => None))
             "in/sales.CSV" "sales" "CSV").
  - reflexivity.
  - discriminate.
  - discriminate.
  - apply not_in_chars. reflexivity.
  - reflexivity.
Defined.

Lemma substring_chars (s : string) (i m : nat) (c : ascii) :
  In c (chars (substring i m s)) -> In c (chars s).
Proof.
  revert i m. induction s as [|x s IH]; intros i m H; simpl in *.
  - destruct i, m; simpl in H; contradiction.
  - destruct i as [|i].
    + destruct m as [|m]; simpl in H; [contradiction|].
      destruct H as [H|H]; [now left | right; exact (IH 0 m H)].
    + right. exact (IH i m H).
Qed.

Lemma path_name_no_slash (s : string) : ~ In "/"%char (chars (path_name s)).
Proof.
  unfold path_name.
  destruct (rev (filter _ (split_on "/" s))) as [|c cs] eqn:E; [simpl; tauto|].
  apply (split_on_parts "/" s c).
  assert (Hc : In c (rev (filter (fun c => negb (String.eqb c "" || String.eqb c "."))
                                 (split_on "/" s))))
    by (rewrite E; now left).
  apply in_rev, filter_In in Hc. tauto.
Qed.

(** The report is written in the current directory: when the timestamp has
    no slash, the report's file name has none, whatever the input path. *)
Theorem report_filename_in_cwd (w : world) (arg : string) :
  ~ In "/"%char (chars (w_timestamp w)) ->
  ~ In "/"%char (chars (report_filename w arg)).
Proof.
  intros Ht. unfold report_filename. rewrite !chars_app. intros H.
  repeat (apply in_app_iff in H as [H|H]).
  - unfold path_stem in H.
    destruct (rfind "." (path_name arg)) as [i|];
      [destruct (_ && _); [apply substring_chars in H|]|];
      exact (path_name_no_slash arg H).
  - simpl in H. repeat destruct H as [H|H]; try discriminate; try contradiction.
  - exact (Ht H).
  - simpl in H. repeat destruct H as [H|H]; try discriminate; try contradiction.
Qed.

Lemma report_filename_in_cwd_witness :
  ~ In "/"%char (chars (report_filename (scenario_world "" (fun _ _ => None))
                          "/home/user/data/sales.csv")).
Proof.
  apply report_filename_in_cwd. apply not_in_chars. reflexivity.
Defined.
